(** * ControlPID: a shallow embedding of the PID controller object

    The development follows [ControlPID.h] and [ControlPID.cpp]:

    - the C++ type [float] is IEEE 754 binary32, taken from the standard
      library's executable specification [SpecFloat] at precision 24 and
      maximal exponent 128 (round to nearest, ties to even; NaN carries no
      payload);
    - [unsigned long] is a 32-bit counter, a [Z] whose subtraction wraps;
    - the object is a record with the private members of the class, and each
      member function takes the object and returns the updated object
      (together with the returned value when it has one);
    - the clock [micros()] is an input of [Controlar]. *)

From Stdlib Require Import ZArith QArith List Bool Lia.
From Stdlib Require Import Floats.SpecFloat.
Import ListNotations.

Local Open Scope Z_scope.

(** ** Binary32 arithmetic *)

Module F32.

Definition prec : Z := 24.
Definition emax : Z := 128.

Definition float : Type := spec_float.

Definition add (x y : float) : float := SFadd prec emax x y.
Definition sub (x y : float) : float := SFsub prec emax x y.
Definition mul (x y : float) : float := SFmul prec emax x y.
Definition div (x y : float) : float := SFdiv prec emax x y.

(** C++ comparisons: every comparison with a NaN is false, except [!=]. *)
Definition eqb (x y : float) : bool := SFeqb x y.
Definition neqb (x y : float) : bool := negb (SFeqb x y).
Definition ltb (x y : float) : bool := SFltb x y.
Definition gtb (x y : float) : bool := SFltb y x.
Definition leb (x y : float) : bool := SFleb x y.

(** Conversion of an integer value to [float] (integer literals, and the
    [unsigned long] operand of a mixed expression). *)
Definition of_Z (z : Z) : float := binary_normalize prec emax z 0 false.

Definition is_nan (x : float) : bool :=
  match x with S754_nan => true | _ => false end.

(** [x] with a negative zero replaced by the positive zero: the value of
    [x + 0] in round to nearest. *)
Definition drop_zero_sign (x : float) : float :=
  match x with S754_zero true => S754_zero false | _ => x end.

(** The zeros and NaN. *)
Definition zero_or_nan (x : float) : bool :=
  match x with S754_zero _ | S754_nan => true | _ => false end.

(** Membership in the closed interval [[lo, hi]]. *)
Definition within (lo hi x : float) : bool := leb lo x && leb x hi.

End F32.

Arguments F32.add : simpl never.
Arguments F32.sub : simpl never.
Arguments F32.mul : simpl never.
Arguments F32.div : simpl never.
Arguments F32.eqb : simpl never.
Arguments F32.neqb : simpl never.
Arguments F32.ltb : simpl never.
Arguments F32.gtb : simpl never.
Arguments F32.leb : simpl never.
Arguments F32.of_Z : simpl never.

Declare Scope f32_scope.
Delimit Scope f32_scope with f32.
Infix "+" := F32.add : f32_scope.
Infix "-" := F32.sub : f32_scope.
Infix "*" := F32.mul : f32_scope.
Infix "/" := F32.div : f32_scope.
Infix "==" := F32.eqb (at level 70, no associativity) : f32_scope.
Infix "!=" := F32.neqb (at level 70, no associativity) : f32_scope.
Infix "<" := F32.ltb : f32_scope.
Infix ">" := F32.gtb : f32_scope.

Definition float : Type := F32.float.

(** ** [unsigned long] *)

Definition ulong : Type := Z.
Definition ULONG_MOD : Z := 2 ^ 32.

(** [a - b] on [unsigned long] operands. *)
Definition ulong_sub (a b : ulong) : ulong := (a - b) mod ULONG_MOD.

(** ** What [Arduino.h] provides

    [Arduino.h] is included by the sources but is not part of the repository.
    The Arduino core defines [min] and [max] as the macros
    [((a)<(b)?(a):(b))] and [((a)>(b)?(a):(b))]. *)

Definition min (a b : float) : float := if (a < b)%f32 then a else b.
Definition max (a b : float) : float := if (a > b)%f32 then a else b.

Arguments min : simpl never.
Arguments max : simpl never.
Arguments ulong_sub : simpl never.

(** ** The object *)

Record controlPID : Type := mkPID {
  Salida : float;
  Proporcional : float;
  Integral : float;
  Derivativo : float;
  Kp : float;
  Ti : float;
  Td : float;
  TiempoAnterior : ulong;
  ErrorAnterior : float;
  LimitaSalida : bool;
  LimitaIntegral : bool;
  CondicionaIntegral : bool;
  SalidaMax : float;
  SalidaMin : float
}.

(** [const float MILLON=1e6] *)
Definition MILLON : float := F32.of_Z 1000000.

(** The literal [0] assigned to, or compared with, a [float]. *)
Definition cero : float := F32.of_Z 0.

Arguments MILLON : simpl never.
Arguments cero : simpl never.

(** Assignments to one member. *)
Definition set_Salida (s : controlPID) (v : float) : controlPID :=
  mkPID v (Proporcional s) (Integral s) (Derivativo s) (Kp s) (Ti s) (Td s)
        (TiempoAnterior s) (ErrorAnterior s) (LimitaSalida s) (LimitaIntegral s)
        (CondicionaIntegral s) (SalidaMax s) (SalidaMin s).
Definition set_Proporcional (s : controlPID) (v : float) : controlPID :=
  mkPID (Salida s) v (Integral s) (Derivativo s) (Kp s) (Ti s) (Td s)
        (TiempoAnterior s) (ErrorAnterior s) (LimitaSalida s) (LimitaIntegral s)
        (CondicionaIntegral s) (SalidaMax s) (SalidaMin s).
Definition set_Integral (s : controlPID) (v : float) : controlPID :=
  mkPID (Salida s) (Proporcional s) v (Derivativo s) (Kp s) (Ti s) (Td s)
        (TiempoAnterior s) (ErrorAnterior s) (LimitaSalida s) (LimitaIntegral s)
        (CondicionaIntegral s) (SalidaMax s) (SalidaMin s).
Definition set_Derivativo (s : controlPID) (v : float) : controlPID :=
  mkPID (Salida s) (Proporcional s) (Integral s) v (Kp s) (Ti s) (Td s)
        (TiempoAnterior s) (ErrorAnterior s) (LimitaSalida s) (LimitaIntegral s)
        (CondicionaIntegral s) (SalidaMax s) (SalidaMin s).
Definition set_Kp (s : controlPID) (v : float) : controlPID :=
  mkPID (Salida s) (Proporcional s) (Integral s) (Derivativo s) v (Ti s) (Td s)
        (TiempoAnterior s) (ErrorAnterior s) (LimitaSalida s) (LimitaIntegral s)
        (CondicionaIntegral s) (SalidaMax s) (SalidaMin s).
Definition set_Ti (s : controlPID) (v : float) : controlPID :=
  mkPID (Salida s) (Proporcional s) (Integral s) (Derivativo s) (Kp s) v (Td s)
        (TiempoAnterior s) (ErrorAnterior s) (LimitaSalida s) (LimitaIntegral s)
        (CondicionaIntegral s) (SalidaMax s) (SalidaMin s).
Definition set_Td (s : controlPID) (v : float) : controlPID :=
  mkPID (Salida s) (Proporcional s) (Integral s) (Derivativo s) (Kp s) (Ti s) v
        (TiempoAnterior s) (ErrorAnterior s) (LimitaSalida s) (LimitaIntegral s)
        (CondicionaIntegral s) (SalidaMax s) (SalidaMin s).
Definition set_TiempoAnterior (s : controlPID) (v : ulong) : controlPID :=
  mkPID (Salida s) (Proporcional s) (Integral s) (Derivativo s) (Kp s) (Ti s) (Td s)
        v (ErrorAnterior s) (LimitaSalida s) (LimitaIntegral s)
        (CondicionaIntegral s) (SalidaMax s) (SalidaMin s).
Definition set_ErrorAnterior (s : controlPID) (v : float) : controlPID :=
  mkPID (Salida s) (Proporcional s) (Integral s) (Derivativo s) (Kp s) (Ti s) (Td s)
        (TiempoAnterior s) v (LimitaSalida s) (LimitaIntegral s)
        (CondicionaIntegral s) (SalidaMax s) (SalidaMin s).
Definition set_LimitaSalida (s : controlPID) (v : bool) : controlPID :=
  mkPID (Salida s) (Proporcional s) (Integral s) (Derivativo s) (Kp s) (Ti s) (Td s)
        (TiempoAnterior s) (ErrorAnterior s) v (LimitaIntegral s)
        (CondicionaIntegral s) (SalidaMax s) (SalidaMin s).
Definition set_LimitaIntegral (s : controlPID) (v : bool) : controlPID :=
  mkPID (Salida s) (Proporcional s) (Integral s) (Derivativo s) (Kp s) (Ti s) (Td s)
        (TiempoAnterior s) (ErrorAnterior s) (LimitaSalida s) v
        (CondicionaIntegral s) (SalidaMax s) (SalidaMin s).
Definition set_CondicionaIntegral (s : controlPID) (v : bool) : controlPID :=
  mkPID (Salida s) (Proporcional s) (Integral s) (Derivativo s) (Kp s) (Ti s) (Td s)
        (TiempoAnterior s) (ErrorAnterior s) (LimitaSalida s) (LimitaIntegral s)
        v (SalidaMax s) (SalidaMin s).
Definition set_SalidaMax (s : controlPID) (v : float) : controlPID :=
  mkPID (Salida s) (Proporcional s) (Integral s) (Derivativo s) (Kp s) (Ti s) (Td s)
        (TiempoAnterior s) (ErrorAnterior s) (LimitaSalida s) (LimitaIntegral s)
        (CondicionaIntegral s) v (SalidaMin s).
Definition set_SalidaMin (s : controlPID) (v : float) : controlPID :=
  mkPID (Salida s) (Proporcional s) (Integral s) (Derivativo s) (Kp s) (Ti s) (Td s)
        (TiempoAnterior s) (ErrorAnterior s) (LimitaSalida s) (LimitaIntegral s)
        (CondicionaIntegral s) (SalidaMax s) v.

(** ** Member functions *)

(** [void ConfigurarPID(float KP, float TI, float TD)] *)
Definition ConfigurarPID (s : controlPID) (KP TI TD : float) : controlPID :=
  let s := set_Kp s KP in
  let s := set_Ti s TI in
  let s := set_Td s TD in
  let s := set_TiempoAnterior s 0 in
  let s := set_ErrorAnterior s cero in
  let s := set_Integral s cero in
  s.

(** [controlPID(float KP, float TI, float TD)].  The constructor assigns the
    gains, the integration state and the three flags; the other members
    ([Salida], [Proporcional], [Derivativo], [SalidaMax], [SalidaMin]) keep
    what the storage [mem] of the object held. *)
Definition controlPID_new (mem : controlPID) (KP TI TD : float) : controlPID :=
  let s := ConfigurarPID mem KP TI TD in
  let s := set_LimitaSalida s false in
  let s := set_LimitaIntegral s false in
  let s := set_CondicionaIntegral s false in
  s.

(** Storage of an object with static storage duration: zero-initialised
    before the constructor runs. *)
Definition zero_storage : controlPID :=
  mkPID cero cero cero cero cero cero cero 0 cero false false false cero cero.

(** [boolean LimitarSalida()] *)
Definition LimitarSalida0 (s : controlPID) : bool := LimitaSalida s.

(** [boolean LimitarSalida(boolean RESPUESTA)] *)
Definition LimitarSalida1 (s : controlPID) (RESPUESTA : bool) : controlPID * bool :=
  let s := set_LimitaSalida s RESPUESTA in
  let s := if (SalidaMax s == cero)%f32 && (SalidaMin s == cero)%f32
           then set_LimitaSalida s false else s in
  (s, LimitaSalida s).

(** [boolean LimitarSalida(boolean RESPUESTA, float SMIN, float SMAX)] *)
Definition LimitarSalida3 (s : controlPID) (RESPUESTA : bool) (SMIN SMAX : float)
  : controlPID * bool :=
  let s := set_SalidaMax s SMAX in
  let s := set_SalidaMin s SMIN in
  let s := set_LimitaSalida s RESPUESTA in
  let s := if (SalidaMax s == SalidaMin s)%f32 then set_LimitaSalida s false else s in
  let s := if (SalidaMin s > SalidaMax s)%f32 then set_LimitaSalida s false else s in
  (s, LimitaSalida s).

(** [boolean LimitarIntegral()] *)
Definition LimitarIntegral0 (s : controlPID) : bool := LimitaIntegral s.

(** [boolean LimitarIntegral(boolean RESPUESTA)] *)
Definition LimitarIntegral (s : controlPID) (RESPUESTA : bool) : controlPID * bool :=
  let s := set_LimitaIntegral s RESPUESTA in
  let s := if (SalidaMax s == SalidaMin s)%f32 then set_LimitaIntegral s false else s in
  (s, LimitaIntegral s).

(** [boolean CondicionarIntegral()] *)
Definition CondicionarIntegral0 (s : controlPID) : bool := CondicionaIntegral s.

(** [boolean CondicionarIntegral(boolean RESPUESTA)] *)
Definition CondicionarIntegral (s : controlPID) (RESPUESTA : bool) : controlPID * bool :=
  let s := set_CondicionaIntegral s RESPUESTA in
  let s := if negb (LimitaSalida s) then set_CondicionaIntegral s false else s in
  (s, CondicionaIntegral s).

(** [float Controlar(float ERROR)], block by block as the comments of the
    function delimit them.  [TiempoActual] is the value read from [micros()]
    at the start of the call. *)

(** [// PROPORCIONAL] *)
Definition Controlar_proporcional (s : controlPID) (ERROR : float) : controlPID :=
  set_Proporcional s (Kp s * ERROR)%f32.

(** [// DERIVATIVO] *)
Definition Controlar_derivativo (s : controlPID) (TiempoActual : ulong) (ERROR : float)
  : controlPID :=
  if (0 <? TiempoAnterior s) && (Td s != cero)%f32 then
    set_Derivativo s
      (Kp s * Td s * (ERROR - ErrorAnterior s) * MILLON
       / F32.of_Z (ulong_sub TiempoActual (TiempoAnterior s)))%f32
  else
    set_Derivativo s cero.

(** [// Debo saturar salida?]: the provisional output is stored in [Salida]
    and the local [SalidaEstaSaturada] (initialised to [false]) is returned
    with the object. *)
Definition Controlar_saturacion (s : controlPID) : controlPID * bool :=
  let SalidaEstaSaturada := false in
  let s := set_Salida s (Proporcional s + Integral s + Derivativo s)%f32 in
  let SalidaEstaSaturada :=
    if LimitaSalida s && ((Salida s > SalidaMax s)%f32 || (Salida s < SalidaMin s)%f32)
    then true else SalidaEstaSaturada in
  (s, SalidaEstaSaturada).

(** [// INTEGRAL] *)
Definition Controlar_integral (s : controlPID) (TiempoActual : ulong) (ERROR : float)
  (SalidaEstaSaturada : bool) : controlPID :=
  if (0 <? TiempoAnterior s) && (Ti s != cero)%f32 then
    let s :=
      if negb (CondicionaIntegral s) || negb SalidaEstaSaturada then
        set_Integral s
          (Integral s
           + Kp s * (ERROR + ErrorAnterior s)
             * F32.of_Z (ulong_sub TiempoActual (TiempoAnterior s))
             / (F32.of_Z 2 * Ti s * MILLON))%f32
      else s in
    let s :=
      if LimitaIntegral s then
        let s := set_Integral s (min (Integral s) (SalidaMax s)) in
        let s := set_Integral s (max (Integral s) (SalidaMin s)) in
        s
      else s in
    s
  else s.

(** [// Calculo final completo], the output limit, and the bookkeeping for
    the next call. *)
Definition Controlar_final (s : controlPID) (TiempoActual : ulong) (ERROR : float)
  : controlPID * float :=
  let s := set_Salida s (Proporcional s + Integral s + Derivativo s)%f32 in
  let s :=
    if LimitaSalida s then
      let s := set_Salida s (min (Salida s) (SalidaMax s)) in
      let s := set_Salida s (max (Salida s) (SalidaMin s)) in
      s
    else s in
  let s := set_TiempoAnterior s TiempoActual in
  let s := set_ErrorAnterior s ERROR in
  (s, Salida s).

Definition Controlar (s : controlPID) (TiempoActual : ulong) (ERROR : float)
  : controlPID * float :=
  let s := Controlar_proporcional s ERROR in
  let s := Controlar_derivativo s TiempoActual ERROR in
  let '(s, SalidaEstaSaturada) := Controlar_saturacion s in
  let s := Controlar_integral s TiempoActual ERROR SalidaEstaSaturada in
  Controlar_final s TiempoActual ERROR.

(** [float ObtenerIntegral()] and the other accessors. *)
Definition ObtenerIntegral (s : controlPID) : float := Integral s.
Definition ObtenerProporcional (s : controlPID) : float := Proporcional s.
Definition ObtenerDerivativo (s : controlPID) : float := Derivativo s.
Definition ObtenerSalida (s : controlPID) : float := Salida s.

(** [void Apagar()] *)
Definition Apagar (s : controlPID) : controlPID :=
  let s := set_TiempoAnterior s 0 in
  let s := set_ErrorAnterior s cero in
  let s := set_Integral s cero in
  let s := set_Proporcional s cero in
  let s := set_Derivativo s cero in
  s.

(** ** Sequences of calls *)

(** One control cycle: the clock reading and the error handed to [Controlar]. *)
Definition ciclo : Type := (ulong * float)%type.

(** Successive [Controlar] calls; each entry of the result is the object
    after the call and the value the call returned. *)
Fixpoint Controlar_seq (s : controlPID) (cs : list ciclo)
  : list (controlPID * float) :=
  match cs with
  | [] => []
  | (t, e) :: cs' =>
      let r := Controlar s t e in
      r :: Controlar_seq (fst r) cs'
  end.

(** The calls a client can make on a constructed object. *)
Inductive operacion : Type :=
| OpConfigurarPID (KP TI TD : float)
| OpLimitarSalida1 (RESPUESTA : bool)
| OpLimitarSalida3 (RESPUESTA : bool) (SMIN SMAX : float)
| OpLimitarIntegral (RESPUESTA : bool)
| OpCondicionarIntegral (RESPUESTA : bool)
| OpControlar (TiempoActual : ulong) (ERROR : float)
| OpApagar.

Definition ejecutar (s : controlPID) (o : operacion) : controlPID :=
  match o with
  | OpConfigurarPID KP TI TD => ConfigurarPID s KP TI TD
  | OpLimitarSalida1 b => fst (LimitarSalida1 s b)
  | OpLimitarSalida3 b smin smax => fst (LimitarSalida3 s b smin smax)
  | OpLimitarIntegral b => fst (LimitarIntegral s b)
  | OpCondicionarIntegral b => fst (CondicionarIntegral s b)
  | OpControlar t e => fst (Controlar s t e)
  | OpApagar => Apagar s
  end.

Definition ejecutar_seq (s : controlPID) (ops : list operacion) : controlPID :=
  fold_left ejecutar ops s.

(** The states an object can be in: constructed in some storage, then any
    sequence of calls. *)
Inductive alcanzable : controlPID -> Prop :=
| alc_new mem KP TI TD : alcanzable (controlPID_new mem KP TI TD)
| alc_paso s o : alcanzable s -> alcanzable (ejecutar s o).

(** The calls that only change a limit, a bound or the conditioning flag. *)
Definition es_ajuste (o : operacion) : bool :=
  match o with
  | OpLimitarSalida1 _ | OpLimitarSalida3 _ _ _
  | OpLimitarIntegral _ | OpCondicionarIntegral _ => true
  | _ => false
  end.

(** The [LimitarSalida] calls that take bounds, and those of either overload. *)
Definition es_limitar_salida3 (o : operacion) : bool :=
  match o with OpLimitarSalida3 _ _ _ => true | _ => false end.

Definition es_limitar_salida (o : operacion) : bool :=
  match o with OpLimitarSalida1 _ | OpLimitarSalida3 _ _ _ => true | _ => false end.

(** The values returned by the [Controlar] calls of a sequence of calls. *)
Fixpoint ejecutar_salidas (s : controlPID) (ops : list operacion) : list float :=
  match ops with
  | [] => []
  | o :: ops' =>
      match o with
      | OpControlar t e => snd (Controlar s t e) :: ejecutar_salidas (ejecutar s o) ops'
      | _ => ejecutar_salidas (ejecutar s o) ops'
      end
  end.

(** The object right after a reset of the integration state: constructed,
    reconfigured or shut down, and possibly adjusted since. *)
Inductive reiniciado : controlPID -> Prop :=
| rei_new mem KP TI TD : reiniciado (controlPID_new mem KP TI TD)
| rei_configurar s KP TI TD : reiniciado (ConfigurarPID s KP TI TD)
| rei_apagar s : reiniciado (Apagar s)
| rei_ajuste s o : reiniciado s -> es_ajuste o = true -> reiniciado (ejecutar s o).

(** The conditioning flag is on only together with the output limit. *)
Definition condiciona_con_limite (s : controlPID) : Prop :=
  CondicionaIntegral s = true -> LimitaSalida s = true.

(** [o] is a [LimitarSalida] call (either overload) that returns [false]. *)
Definition deja_sin_limite (s : controlPID) (o : operacion) : bool :=
  match o with
  | OpLimitarSalida1 b => negb (snd (LimitarSalida1 s b))
  | OpLimitarSalida3 b smin smax => negb (snd (LimitarSalida3 s b smin smax))
  | _ => false
  end.

(** ** The integration step in exact arithmetic

    The increment of [Integral] as [Controlar] writes it, and the area of the
    trapezoid with the elapsed time in seconds, both read over the rationals
    (the elapsed time [dt] is in microseconds). *)

Definition incremento_exacto (kp e e0 ti : Q) (dt : Z) : Q :=
  (kp * (e + e0) * inject_Z dt / (2 * ti * 1000000))%Q.

Definition trapecio_segundos (kp e e0 ti : Q) (dt : Z) : Q :=
  (kp * (e + e0) * (inject_Z dt / 1000000) / (2 * ti))%Q.

(** ** Objects used in the examples *)

(** [controlPID pid(2, 0, 0)] in zeroed storage. *)
Definition pid_P : controlPID :=
  controlPID_new zero_storage (F32.of_Z 2) cero cero.

(** ... then [pid.LimitarSalida(true, -1, 1)]. *)
Definition pid_P_limitado : controlPID :=
  ejecutar pid_P (OpLimitarSalida3 true (F32.of_Z (-1)) (F32.of_Z 1)).

(** [controlPID pid(1, 1, 0)] in zeroed storage. *)
Definition pid_PI : controlPID :=
  controlPID_new zero_storage (F32.of_Z 1) (F32.of_Z 1) cero.

(** ... after a first [Controlar(1)] at clock 1000. *)
Definition pid_PI_en_marcha : controlPID :=
  ejecutar pid_PI (OpControlar 1000 (F32.of_Z 1)).

(** [controlPID pid(1, 1, 0)], then [pid.LimitarSalida(true, 1, 2)] and
    [pid.LimitarIntegral(true)]. *)
Definition pid_PI_limitado : controlPID :=
  ejecutar_seq pid_PI
    [OpLimitarSalida3 true (F32.of_Z 1) (F32.of_Z 2); OpLimitarIntegral true].

(** [controlPID pid(2, 0, 0)], then [pid.LimitarSalida(false, 5, 5)]. *)
Definition pid_P_5_5 : controlPID :=
  ejecutar pid_P (OpLimitarSalida3 false (F32.of_Z 5) (F32.of_Z 5)).

(** [controlPID pid(2, 0, 0)], then [pid.LimitarSalida(false, 3, 1)]. *)
Definition pid_P_3_1 : controlPID :=
  ejecutar pid_P (OpLimitarSalida3 false (F32.of_Z 3) (F32.of_Z 1)).

(** [controlPID pid(2, 0, 0)], then [pid.LimitarSalida(true, -1, 1)],
    [pid.CondicionarIntegral(true)] and [pid.LimitarSalida(false)]. *)
Definition pid_P_condicionado : controlPID :=
  ejecutar_seq pid_P
    [OpLimitarSalida3 true (F32.of_Z (-1)) (F32.of_Z 1);
     OpCondicionarIntegral true;
     OpLimitarSalida1 false].

(** ** Sanity checks on concrete values *)

Example of_Z_MILLON : MILLON = S754_finite false 16000000 (-4).
Proof. reflexivity. Qed.

Example escenario_proporcional :
  snd (Controlar (controlPID_new zero_storage (F32.of_Z 2) cero cero) 1000 (F32.of_Z 3))
  = F32.of_Z 6.
Proof. vm_compute. reflexivity. Qed.

(** ** Facts about binary32 comparisons and additions *)

Module F32Facts.

Ltac by_compare :=
  repeat match goal with
    | |- context [Z.compare ?a ?b] => destruct (Z.compare_spec a b)
    | H : context [Z.compare ?a ?b] |- _ => destruct (Z.compare_spec a b)
    | |- context [Pos.compare_cont Eq ?a ?b] =>
        change (Pos.compare_cont Eq a b) with (Pos.compare a b);
        destruct (Pos.compare_spec a b)
    | H : context [Pos.compare_cont Eq ?a ?b] |- _ =>
        change (Pos.compare_cont Eq a b) with (Pos.compare a b) in H;
        destruct (Pos.compare_spec a b)
    end.

Ltac by_cases_on_floats :=
  unfold F32.ltb, F32.gtb, F32.leb, F32.eqb, F32.is_nan, SFltb, SFleb, SFeqb;
  repeat match goal with x : float |- _ => destruct x as [[]|[]| |[] ? ?] end;
  simpl; try discriminate; try reflexivity;
  by_compare; simpl; intros; try discriminate; try reflexivity; try lia.

Lemma gtb_ltb (a b : float) : F32.gtb a b = F32.ltb b a.
Proof. reflexivity. Qed.

Lemma ltb_leb (a b : float) : F32.ltb a b = true -> F32.leb a b = true.
Proof. by_cases_on_floats. Qed.

Lemma leb_not_nan (a b : float) :
  F32.leb a b = true -> F32.is_nan a = false /\ F32.is_nan b = false.
Proof. by_cases_on_floats; split; reflexivity. Qed.

Lemma leb_refl (a : float) : F32.is_nan a = false -> F32.leb a a = true.
Proof. by_cases_on_floats. Qed.

Lemma ltb_asym (a b : float) : F32.ltb a b = true -> F32.ltb b a = false.
Proof. by_cases_on_floats. Qed.

Lemma ltb_trans_asym (a b c : float) :
  F32.ltb a b = true -> F32.ltb b c = true -> F32.ltb c a = false.
Proof. by_cases_on_floats. Qed.

Lemma ltb_zeros (a b : float) :
  F32.eqb a cero = true -> F32.eqb b cero = true -> F32.ltb a b = false.
Proof. unfold cero. by_cases_on_floats. Qed.

(** [x + 0] is [x], except that [-0 + 0] is [+0]. *)
Lemma add_cero (x : float) :
  x <> S754_zero true -> F32.add x cero = x.
Proof. destruct x as [[]|[]| |[] ? ?]; intros H; try reflexivity. now elim H. Qed.

Lemma add_cero_neg : F32.add (S754_zero true) cero = S754_zero false.
Proof. reflexivity. Qed.

(** The two-step clamp [max(min(x, hi), lo)] of the sources. *)
Lemma clamp_within (lo hi x : float) :
  F32.leb lo hi = true -> F32.within lo hi (max (min x hi) lo) = true.
Proof.
  intros Hle. destruct (leb_not_nan _ _ Hle) as [Hlo Hhi].
  unfold F32.within, max, min. rewrite gtb_ltb.
  destruct (F32.ltb x hi) eqn:Hx.
  - destruct (F32.ltb lo x) eqn:Hl.
    + now rewrite (ltb_leb _ _ Hl), (ltb_leb _ _ Hx).
    + now rewrite (leb_refl _ Hlo), Hle.
  - destruct (F32.ltb lo hi) eqn:Hl.
    + now rewrite Hle, (leb_refl _ Hhi).
    + now rewrite (leb_refl _ Hlo), Hle.
Qed.

Lemma clamp_inverted (lo hi x : float) :
  F32.ltb hi lo = true -> max (min x hi) lo = lo.
Proof.
  intros Hinv. unfold max, min. rewrite gtb_ltb.
  destruct (F32.ltb x hi) eqn:Hx.
  - now rewrite (ltb_trans_asym _ _ _ Hx Hinv).
  - now rewrite (ltb_asym _ _ Hinv).
Qed.

End F32Facts.

(** ** The blocks of [Controlar] as assignments *)

Ltac pid_simpl :=
  cbv beta iota zeta delta
    [set_Salida set_Proporcional set_Integral set_Derivativo set_Kp set_Ti
     set_Td set_TiempoAnterior set_ErrorAnterior set_LimitaSalida set_LimitaIntegral
     set_CondicionaIntegral set_SalidaMax set_SalidaMin
     Salida Proporcional Integral Derivativo Kp Ti Td TiempoAnterior ErrorAnterior
     LimitaSalida LimitaIntegral CondicionaIntegral SalidaMax SalidaMin fst snd].

Lemma Controlar_derivativo_eq s t e :
  Controlar_derivativo s t e =
  set_Derivativo s
    (if (0 <? TiempoAnterior s) && (Td s != cero)%f32
     then (Kp s * Td s * (e - ErrorAnterior s) * MILLON
           / F32.of_Z (ulong_sub t (TiempoAnterior s)))%f32
     else cero).
Proof. unfold Controlar_derivativo. destruct (_ && _); reflexivity. Qed.

Lemma Controlar_integral_eq s t e sat :
  Controlar_integral s t e sat =
  set_Integral s
    (if (0 <? TiempoAnterior s) && (Ti s != cero)%f32 then
       let i := if negb (CondicionaIntegral s) || negb sat
                then (Integral s
                      + Kp s * (e + ErrorAnterior s)
                        * F32.of_Z (ulong_sub t (TiempoAnterior s))
                        / (F32.of_Z 2 * Ti s * MILLON))%f32
                else Integral s in
       if LimitaIntegral s then max (min i (SalidaMax s)) (SalidaMin s) else i
     else Integral s).
Proof.
  unfold Controlar_integral. destruct s as [? ? ? ? ? ? ? ? ? ? li ci ? ?]; cbn.
  destruct (_ && _); [|reflexivity].
  destruct (negb ci || negb sat); destruct li; reflexivity.
Qed.

Lemma Controlar_final_eq s t e :
  Controlar_final s t e =
  let o := (Proporcional s + Integral s + Derivativo s)%f32 in
  let o := if LimitaSalida s then max (min o (SalidaMax s)) (SalidaMin s) else o in
  (set_ErrorAnterior (set_TiempoAnterior (set_Salida s o) t) e, o).
Proof.
  unfold Controlar_final. destruct s as [? ? ? ? ? ? ? ? ? ls ? ? ? ?]; cbn.
  destruct ls; reflexivity.
Qed.

(** The whole call: every member of the object after [Controlar], and the
    returned value, in terms of the members before the call. *)
Lemma Controlar_eq s t e :
  Controlar s t e =
  let P := (Kp s * e)%f32 in
  let D := if (0 <? TiempoAnterior s) && (Td s != cero)%f32
           then (Kp s * Td s * (e - ErrorAnterior s) * MILLON
                 / F32.of_Z (ulong_sub t (TiempoAnterior s)))%f32
           else cero in
  let prov := (P + Integral s + D)%f32 in
  let sat := LimitaSalida s && ((prov > SalidaMax s)%f32 || (prov < SalidaMin s)%f32) in
  let I := if (0 <? TiempoAnterior s) && (Ti s != cero)%f32 then
             let i := if negb (CondicionaIntegral s) || negb sat
                      then (Integral s
                            + Kp s * (e + ErrorAnterior s)
                              * F32.of_Z (ulong_sub t (TiempoAnterior s))
                              / (F32.of_Z 2 * Ti s * MILLON))%f32
                      else Integral s in
             if LimitaIntegral s then max (min i (SalidaMax s)) (SalidaMin s) else i
           else Integral s in
  let o := (P + I + D)%f32 in
  let o := if LimitaSalida s then max (min o (SalidaMax s)) (SalidaMin s) else o in
  (mkPID o P I D (Kp s) (Ti s) (Td s) t e (LimitaSalida s) (LimitaIntegral s)
         (CondicionaIntegral s) (SalidaMax s) (SalidaMin s), o).
Proof.
  unfold Controlar, Controlar_saturacion, Controlar_proporcional.
  rewrite Controlar_derivativo_eq.
  cbv zeta. rewrite Controlar_integral_eq, Controlar_final_eq.
  destruct s as [? ? ? ? ? ? ? ta ? ls li ci ? ?]; pid_simpl.
  destruct ls; cbn [andb]; try reflexivity.
  repeat match goal with
         | |- context [if (0 <? ta) && ?x then _ else _] => destruct ((0 <? ta) && x)
         end;
    try match goal with
        | |- context [if ?c then true else false] => destruct c
        end;
    reflexivity.
Qed.

(** What a call leaves alone, and the bookkeeping it does. *)
Lemma Controlar_frame s t e :
  let s' := fst (Controlar s t e) in
  Kp s' = Kp s /\ Ti s' = Ti s /\ Td s' = Td s /\
  LimitaSalida s' = LimitaSalida s /\ LimitaIntegral s' = LimitaIntegral s /\
  CondicionaIntegral s' = CondicionaIntegral s /\
  SalidaMax s' = SalidaMax s /\ SalidaMin s' = SalidaMin s /\
  TiempoAnterior s' = t /\ ErrorAnterior s' = e /\
  Proporcional s' = (Kp s * e)%f32 /\ Salida s' = snd (Controlar s t e).
Proof. rewrite Controlar_eq. cbn. repeat split. Qed.

Lemma Controlar_salida s t e :
  snd (Controlar s t e) =
  let o := (Proporcional (fst (Controlar s t e)) + Integral (fst (Controlar s t e))
            + Derivativo (fst (Controlar s t e)))%f32 in
  if LimitaSalida s then max (min o (SalidaMax s)) (SalidaMin s) else o.
Proof. rewrite Controlar_eq. reflexivity. Qed.

Lemma Controlar_primera s t e :
  TiempoAnterior s = 0 ->
  Derivativo (fst (Controlar s t e)) = cero /\
  Integral (fst (Controlar s t e)) = Integral s.
Proof. intros H. rewrite Controlar_eq. cbn. rewrite H. split; reflexivity. Qed.

(** The four setters as one assignment of the effective flag. *)
Lemma LimitarSalida1_eq s b :
  LimitarSalida1 s b =
  let r := b && negb ((SalidaMax s == cero)%f32 && (SalidaMin s == cero)%f32) in
  (set_LimitaSalida s r, r).
Proof.
  unfold LimitarSalida1. destruct s; pid_simpl.
  destruct (_ && _); destruct b; reflexivity.
Qed.

Lemma LimitarSalida3_eq s b smin smax :
  LimitarSalida3 s b smin smax =
  let r := b && negb (smax == smin)%f32 && negb (smin > smax)%f32 in
  (set_LimitaSalida (set_SalidaMin (set_SalidaMax s smax) smin) r, r).
Proof.
  unfold LimitarSalida3. destruct s; pid_simpl.
  destruct (smax == smin)%f32; pid_simpl;
    destruct (smin > smax)%f32; destruct b; reflexivity.
Qed.

Lemma LimitarIntegral_eq s b :
  LimitarIntegral s b =
  let r := b && negb (SalidaMax s == SalidaMin s)%f32 in
  (set_LimitaIntegral s r, r).
Proof.
  unfold LimitarIntegral. destruct s; pid_simpl.
  destruct (_ == _)%f32; destruct b; reflexivity.
Qed.

Lemma CondicionarIntegral_eq s b :
  CondicionarIntegral s b =
  let r := b && LimitaSalida s in
  (set_CondicionaIntegral s r, r).
Proof.
  unfold CondicionarIntegral. destruct s as [? ? ? ? ? ? ? ? ? ls ? ? ? ?]; pid_simpl.
  destruct ls; destruct b; reflexivity.
Qed.

Lemma alcanzable_seq s ops : alcanzable s -> alcanzable (ejecutar_seq s ops).
Proof.
  revert s. induction ops as [|o ops IH]; intros s H; [exact H|].
  apply IH. now constructor.
Qed.

(** ** Output limit *)

Lemma Controlar_seq_limitada (lo hi : float) (cs : list ciclo) :
  F32.leb lo hi = true ->
  forall s,
    LimitaSalida s = true -> SalidaMin s = lo -> SalidaMax s = hi ->
    Forall (fun r => F32.within lo hi (snd r) = true /\ Salida (fst r) = snd r)
           (Controlar_seq s cs).
Proof.
  intros Hle. induction cs as [|[t e] cs IH]; intros s Hls Hlo Hhi; cbn [Controlar_seq].
  - constructor.
  - destruct (Controlar_frame s t e)
      as (_ & _ & _ & Hls' & _ & _ & Hmax & Hmin & _ & _ & _ & Hsal).
    constructor.
    + split; [|exact Hsal].
      rewrite Controlar_salida, Hls, Hlo, Hhi. now apply F32Facts.clamp_within.
    + apply IH; congruence.
Qed.

(** C1: with the output limit enabled and bounds [SalidaMin <= SalidaMax],
    every value returned along any sequence of [Controlar] calls, which is
    also the value left in [Salida], lies in [[SalidaMin, SalidaMax]]. *)
Theorem C1_salida_en_limites (s : controlPID) (cs : list ciclo) :
  LimitaSalida s = true ->
  F32.leb (SalidaMin s) (SalidaMax s) = true ->
  Forall (fun r => F32.within (SalidaMin s) (SalidaMax s) (snd r) = true
                   /\ Salida (fst r) = snd r)
         (Controlar_seq s cs).
Proof.
  intros Hls Hle. now apply Controlar_seq_limitada.
Qed.

Lemma C1_salida_en_limites_witness :
  LimitaSalida pid_P_limitado = true /\
  F32.leb (SalidaMin pid_P_limitado) (SalidaMax pid_P_limitado) = true /\
  Forall (fun r => F32.within (SalidaMin pid_P_limitado) (SalidaMax pid_P_limitado) (snd r)
                   = true /\ Salida (fst r) = snd r)
         (Controlar_seq pid_P_limitado
            [(1000, F32.of_Z 3); (2500, F32.of_Z (-4)); (4000, S754_nan)]).
Proof.
  split; [reflexivity|]. split; [reflexivity|].
  apply (C1_salida_en_limites pid_P_limitado); reflexivity.
Defined.

(** ** Integral limit *)

(** C3 (amended): with the integral limit enabled and bounds
    [SalidaMin <= SalidaMax], after every [Controlar] call that is not a first
    call ([TiempoAnterior > 0]) and has [Ti != 0], [Integral] lies in
    [[SalidaMin, SalidaMax]], whether or not the accumulator was updated in
    that call. *)
Theorem C3_integral_en_limites (s : controlPID) (t : ulong) (e : float) :
  LimitaIntegral s = true ->
  0 < TiempoAnterior s ->
  (Ti s != cero)%f32 = true ->
  F32.leb (SalidaMin s) (SalidaMax s) = true ->
  F32.within (SalidaMin s) (SalidaMax s) (Integral (fst (Controlar s t e))) = true.
Proof.
  intros Hli Hta Hti Hle. rewrite Controlar_eq. cbn.
  apply Z.ltb_lt in Hta. rewrite Hta, Hti, Hli. cbn [andb].
  now apply F32Facts.clamp_within.
Qed.

Lemma C3_integral_en_limites_witness :
  let s := ejecutar pid_PI_limitado (OpControlar 1000 (F32.of_Z 1)) in
  LimitaIntegral s = true /\ 0 < TiempoAnterior s /\ (Ti s != cero)%f32 = true /\
  F32.leb (SalidaMin s) (SalidaMax s) = true /\
  F32.within (SalidaMin s) (SalidaMax s)
             (Integral (fst (Controlar s 2000 (F32.of_Z 1)))) = true.
Proof.
  intros s. repeat (split; [reflexivity|]).
  apply (C3_integral_en_limites s 2000 (F32.of_Z 1)); reflexivity.
Defined.

(** C3 as stated fails: on the first call after construction, with the
    integral limit enabled on the bounds [[1, 2]], [Integral] stays [0]. *)
Lemma C3_counterexample :
  alcanzable pid_PI_limitado /\
  LimitaIntegral pid_PI_limitado = true /\
  Integral (fst (Controlar pid_PI_limitado 1000 cero)) = cero /\
  F32.within (SalidaMin pid_PI_limitado) (SalidaMax pid_PI_limitado)
             (Integral (fst (Controlar pid_PI_limitado 1000 cero))) = false.
Proof.
  split; [apply alcanzable_seq; constructor|].
  repeat split; reflexivity.
Qed.

(** ** Inverted bounds *)

Lemma Controlar_seq_invertida (lo hi : float) (cs : list ciclo) :
  F32.ltb hi lo = true ->
  forall s,
    LimitaSalida s = true -> SalidaMin s = lo -> SalidaMax s = hi ->
    Forall (fun r => snd r = lo) (Controlar_seq s cs).
Proof.
  intros Hinv. induction cs as [|[t e] cs IH]; intros s Hls Hlo Hhi; cbn [Controlar_seq].
  - constructor.
  - destruct (Controlar_frame s t e)
      as (_ & _ & _ & Hls' & _ & _ & Hmax & Hmin & _).
    constructor.
    + rewrite Controlar_salida, Hls, Hlo, Hhi. now apply F32Facts.clamp_inverted.
    + apply IH; congruence.
Qed.

(** C10: [LimitarSalida(RESPUESTA, SMIN, SMAX)] with [SMIN > SMAX] stores both
    bounds and returns [false]; a following [LimitarSalida(true)] returns
    [true] and enables the limit; from then on every [Controlar] call returns
    exactly [SalidaMin]. *)
Theorem C10_limites_invertidos
  (s : controlPID) (b : bool) (smin smax : float) (cs : list ciclo) :
  (smin > smax)%f32 = true ->
  let r1 := LimitarSalida3 s b smin smax in
  let r2 := LimitarSalida1 (fst r1) true in
  SalidaMin (fst r1) = smin /\ SalidaMax (fst r1) = smax /\
  snd r1 = false /\ LimitaSalida (fst r1) = false /\
  snd r2 = true /\ LimitaSalida (fst r2) = true /\
  SalidaMin (fst r2) = smin /\ SalidaMax (fst r2) = smax /\
  Forall (fun r => snd r = smin) (Controlar_seq (fst r2) cs).
Proof.
  intros Hinv r1 r2.
  assert (Hz : (smax == cero)%f32 && (smin == cero)%f32 = false).
  { destruct (smax == cero)%f32 eqn:Ea; [|reflexivity].
    destruct (smin == cero)%f32 eqn:Eb; [|reflexivity].
    rewrite F32Facts.gtb_ltb, (F32Facts.ltb_zeros _ _ Ea Eb) in Hinv. discriminate. }
  subst r2 r1. rewrite LimitarSalida3_eq, Hinv, andb_false_r. cbv zeta. cbn [fst snd].
  rewrite LimitarSalida1_eq. destruct s; pid_simpl. rewrite Hz. cbn [andb negb].
  repeat split.
  apply Controlar_seq_invertida with (hi := smax); try reflexivity.
  now rewrite <- F32Facts.gtb_ltb.
Qed.

Lemma C10_limites_invertidos_witness :
  (F32.of_Z 3 > F32.of_Z 1)%f32 = true /\
  Forall (fun r => snd r = F32.of_Z 3)
         (Controlar_seq
            (fst (LimitarSalida1 (fst (LimitarSalida3 pid_P true (F32.of_Z 3) (F32.of_Z 1)))
                                 true))
            [(1000, F32.of_Z 5); (2000, F32.of_Z (-5))]).
Proof.
  split; [reflexivity|].
  apply (C10_limites_invertidos pid_P true (F32.of_Z 3) (F32.of_Z 1)
           [(1000, F32.of_Z 5); (2000, F32.of_Z (-5))]).
  reflexivity.
Defined.

(** ** Trapezoidal integration and its pause on saturation *)

(** C2: in a call that is not the first ([TiempoAnterior > 0]) and has
    [Ti != 0], let the saturation flag be [LimitaSalida] and the provisional
    output [Proporcional + Integral + Derivativo] (with the integral of the
    previous call) outside [[SalidaMin, SalidaMax]].  If conditioning is off
    or the flag is false, [Integral] receives the increment
    [Kp * (ERROR + ErrorAnterior) * (TiempoActual - TiempoAnterior) / (2 * Ti * MILLON)];
    if conditioning is on and the flag is true it receives none.  The
    integral limit, when enabled, is then applied to the result. *)
Theorem C2_integracion_trapezoidal (s : controlPID) (t : ulong) (e : float) :
  0 < TiempoAnterior s ->
  (Ti s != cero)%f32 = true ->
  let dt := F32.of_Z (ulong_sub t (TiempoAnterior s)) in
  let P := (Kp s * e)%f32 in
  let D := if (Td s != cero)%f32
           then (Kp s * Td s * (e - ErrorAnterior s) * MILLON / dt)%f32
           else cero in
  let provisional := (P + Integral s + D)%f32 in
  let saturada :=
    LimitaSalida s
    && ((provisional > SalidaMax s)%f32 || (provisional < SalidaMin s)%f32) in
  let incremento :=
    (Kp s * (e + ErrorAnterior s) * dt / (F32.of_Z 2 * Ti s * MILLON))%f32 in
  let limitar x :=
    if LimitaIntegral s then max (min x (SalidaMax s)) (SalidaMin s) else x in
  Integral (fst (Controlar s t e)) =
  if negb (CondicionaIntegral s) || negb saturada
  then limitar (Integral s + incremento)%f32
  else limitar (Integral s).
Proof.
  intros Hta Hti. rewrite Controlar_eq. cbn.
  apply Z.ltb_lt in Hta. rewrite Hta, Hti. cbn [andb].
  destruct (negb (CondicionaIntegral s) || _); reflexivity.
Qed.

Lemma C2_integracion_trapezoidal_witness :
  0 < TiempoAnterior pid_PI_en_marcha /\
  (Ti pid_PI_en_marcha != cero)%f32 = true /\
  Integral pid_PI_en_marcha = cero /\
  Integral (fst (Controlar pid_PI_en_marcha 1001000 (F32.of_Z 1))) = F32.of_Z 1.
Proof.
  split; [reflexivity|]. split; [reflexivity|]. split; [reflexivity|].
  rewrite (C2_integracion_trapezoidal pid_PI_en_marcha 1001000 (F32.of_Z 1));
    reflexivity.
Defined.

(** Over the rationals, the increment written in the sources is the area of
    the trapezoid with the elapsed time in seconds. *)
Lemma incremento_exacto_es_trapecio (kp e e0 ti : Q) (dt : Z) :
  ~ (ti == 0)%Q ->
  (incremento_exacto kp e e0 ti dt == trapecio_segundos kp e e0 ti dt)%Q.
Proof.
  intros Hti. unfold incremento_exacto, trapecio_segundos. field. exact Hti.
Qed.

(** ** First call after a reset *)

Lemma reiniciado_estado s :
  reiniciado s -> TiempoAnterior s = 0 /\ Integral s = cero.
Proof.
  induction 1 as [mem KP TI TD|s KP TI TD|s|s o _ IH Ho].
  - split; reflexivity.
  - split; reflexivity.
  - split; reflexivity.
  - destruct o; try discriminate Ho; cbn [ejecutar].
    + rewrite LimitarSalida1_eq. exact IH.
    + rewrite LimitarSalida3_eq. exact IH.
    + rewrite LimitarIntegral_eq. exact IH.
    + rewrite CondicionarIntegral_eq. exact IH.
Qed.

(** C8: the first [Controlar] call after the constructor, [ConfigurarPID] or
    [Apagar] gives [Derivativo = 0] and leaves [Integral] at its reset value
    [0], whatever the error and the gains. *)
Theorem C8_primera_llamada (s : controlPID) (t : ulong) (e : float) :
  reiniciado s ->
  Integral s = cero /\
  Derivativo (fst (Controlar s t e)) = cero /\
  Integral (fst (Controlar s t e)) = cero.
Proof.
  intros H. destruct (reiniciado_estado s H) as [Hta Hi].
  destruct (Controlar_primera s t e Hta) as [Hd Hi'].
  repeat split; congruence.
Qed.

Lemma C8_primera_llamada_witness :
  let s := ejecutar (Apagar (fst (Controlar pid_PI_en_marcha 1001000 (F32.of_Z 1))))
                    (OpLimitarSalida3 true (F32.of_Z (-1)) (F32.of_Z 1)) in
  reiniciado s /\
  Derivativo (fst (Controlar s 2000000 (F32.of_Z 7))) = cero /\
  Integral (fst (Controlar s 2000000 (F32.of_Z 7))) = cero.
Proof.
  intros s.
  assert (H : reiniciado s) by (apply rei_ajuste; [apply rei_apagar|reflexivity]).
  split; [exact H|].
  apply (C8_primera_llamada s 2000000 (F32.of_Z 7) H).
Defined.

(** C9: when [micros()] reads [0] in a call, [TiempoAnterior] is left at [0],
    the value that also marks the absence of a previous sample, and the next
    call is treated as a first call: its [Derivativo] is [0] and it leaves
    [Integral] as it was. *)
Theorem C9_reloj_en_cero (s : controlPID) (e1 : float) (t2 : ulong) (e2 : float) :
  let s1 := fst (Controlar s 0 e1) in
  let s2 := fst (Controlar s1 t2 e2) in
  TiempoAnterior s1 = 0 /\ ErrorAnterior s1 = e1 /\
  Derivativo s2 = cero /\ Integral s2 = Integral s1.
Proof.
  intros s1 s2.
  destruct (Controlar_frame s 0 e1) as (_ & _ & _ & _ & _ & _ & _ & _ & Hta & He & _).
  fold s1 in Hta, He.
  destruct (Controlar_primera s1 t2 e2 Hta) as [Hd Hi].
  repeat split; assumption.
Qed.

(** ** Pure proportional control *)

(** While [Ti] is zero the accumulator stays at the [0] of the last reset. *)
Lemma alcanzable_sin_integral s :
  alcanzable s -> (Ti s == cero)%f32 = true -> Integral s = cero.
Proof.
  induction 1 as [mem KP TI TD|s o _ IH]; [reflexivity|].
  destruct o; cbn [ejecutar].
  - reflexivity.
  - rewrite LimitarSalida1_eq. exact IH.
  - rewrite LimitarSalida3_eq. exact IH.
  - rewrite LimitarIntegral_eq. exact IH.
  - rewrite CondicionarIntegral_eq. exact IH.
  - rewrite Controlar_eq. cbn. intros Hti. unfold F32.neqb. fold (F32.eqb (Ti s) cero).
    rewrite Hti, andb_false_r. now apply IH.
  - reflexivity.
Qed.

Lemma add_cero_cero (x : float) :
  (x + cero + cero)%f32 = F32.drop_zero_sign x.
Proof. destruct x as [[]|[]| |[] ? ?]; reflexivity. Qed.

(** C7 (amended): in every reachable state with [Ti = 0] and [Td = 0], a
    [Controlar(e)] call returns [Kp * e] when the output limit is disabled,
    and [Kp * e] limited by [min] with [SalidaMax] then [max] with
    [SalidaMin] when it is enabled (a product [-0] enters the sum with the
    zero integral and comes out as [+0]). *)
Theorem C7_proporcional_puro (s : controlPID) (t : ulong) (e : float) :
  alcanzable s ->
  (Ti s == cero)%f32 = true ->
  (Td s == cero)%f32 = true ->
  let p := F32.drop_zero_sign (Kp s * e)%f32 in
  snd (Controlar s t e) =
  if LimitaSalida s then max (min p (SalidaMax s)) (SalidaMin s) else p.
Proof.
  intros Hs Hti Htd p. rewrite Controlar_eq. cbn.
  unfold F32.neqb. fold (F32.eqb (Ti s) cero) (F32.eqb (Td s) cero).
  rewrite Hti, Htd, !andb_false_r, (alcanzable_sin_integral s Hs Hti), add_cero_cero.
  reflexivity.
Qed.

Lemma C7_proporcional_puro_witness :
  alcanzable pid_P /\ (Ti pid_P == cero)%f32 = true /\ (Td pid_P == cero)%f32 = true /\
  snd (Controlar pid_P 1000 (F32.of_Z 3)) = F32.of_Z 6.
Proof.
  assert (H : alcanzable pid_P) by constructor.
  split; [exact H|]. split; [reflexivity|]. split; [reflexivity|].
  rewrite (C7_proporcional_puro pid_P 1000 (F32.of_Z 3) H); reflexivity.
Defined.

(** C7 as stated fails: with [Kp = 2], [Ti = Td = 0] and the output limited to
    [[-1, 1]], [Controlar(3)] returns [1], not [Kp * 3 = 6]. *)
Lemma C7_counterexample :
  alcanzable pid_P_limitado /\
  (Ti pid_P_limitado == cero)%f32 = true /\
  (Td pid_P_limitado == cero)%f32 = true /\
  snd (Controlar pid_P_limitado 1000 (F32.of_Z 3)) = F32.of_Z 1 /\
  (Kp pid_P_limitado * F32.of_Z 3)%f32 = F32.of_Z 6 /\
  snd (Controlar pid_P_limitado 1000 (F32.of_Z 3))
  <> (Kp pid_P_limitado * F32.of_Z 3)%f32.
Proof.
  split; [apply (alc_paso pid_P); apply alc_new|].
  repeat split; try reflexivity. vm_compute. discriminate.
Qed.

(** ** The setters and their guards *)

(** C4 (amended): the constructor leaves conditioning off;
    "[CondicionaIntegral] implies [LimitaSalida]" is kept by every call other
    than a [LimitarSalida] (either overload) that returns [false]; such a call
    leaves [CondicionaIntegral] as it was and [LimitaSalida] off; and while
    [LimitaSalida] is off, [Controlar] does what it does with conditioning
    off. *)
Theorem C4_condicionar_requiere_limite :
  (forall mem KP TI TD, CondicionaIntegral (controlPID_new mem KP TI TD) = false) /\
  (forall s o,
      condiciona_con_limite s -> deja_sin_limite s o = false ->
      condiciona_con_limite (ejecutar s o)) /\
  (forall s o,
      deja_sin_limite s o = true ->
      CondicionaIntegral (ejecutar s o) = CondicionaIntegral s /\
      LimitaSalida (ejecutar s o) = false) /\
  (forall s t e,
      LimitaSalida s = false ->
      Controlar (set_CondicionaIntegral s false) t e =
      (set_CondicionaIntegral (fst (Controlar s t e)) false, snd (Controlar s t e))).
Proof.
  split; [reflexivity|]. split; [|split].
  - unfold condiciona_con_limite. intros s o Hinv Hno.
    destruct o; cbn [ejecutar deja_sin_limite] in *.
    + exact Hinv.
    + apply negb_false_iff in Hno. intros _. revert Hno.
      rewrite LimitarSalida1_eq. cbn. trivial.
    + apply negb_false_iff in Hno. intros _. revert Hno.
      rewrite LimitarSalida3_eq. cbn. trivial.
    + rewrite LimitarIntegral_eq. exact Hinv.
    + rewrite CondicionarIntegral_eq. cbn. intros H.
      now apply andb_true_iff in H.
    + rewrite Controlar_eq. exact Hinv.
    + exact Hinv.
  - intros s o Hno. destruct o; cbn [ejecutar deja_sin_limite] in *; try discriminate.
    + apply negb_true_iff in Hno. revert Hno.
      rewrite LimitarSalida1_eq. cbn. auto.
    + apply negb_true_iff in Hno. revert Hno.
      rewrite LimitarSalida3_eq. cbn. auto.
  - intros s t e Hls. rewrite !Controlar_eq.
    destruct s as [? ? ? ? ? ? ? ? ? ls ? ci ? ?]. cbn in Hls. subst ls.
    pid_simpl. cbn [andb negb orb]. rewrite orb_true_r. reflexivity.
Qed.

Lemma C4_condicionar_requiere_limite_witness :
  condiciona_con_limite
    (ejecutar (ejecutar pid_P_limitado (OpCondicionarIntegral true))
              (OpControlar 1000 (F32.of_Z 3))).
Proof.
  apply (proj1 (proj2 C4_condicionar_requiere_limite)); [|reflexivity].
  apply (proj1 (proj2 C4_condicionar_requiere_limite)); [|reflexivity].
  intros _. reflexivity.
Defined.

(** C4 as stated fails: after [LimitarSalida(true, -1, 1)],
    [CondicionarIntegral(true)] and [LimitarSalida(false)] the conditioning
    flag is on and the output limit is off. *)
Lemma C4_counterexample :
  alcanzable pid_P_condicionado /\
  CondicionarIntegral0 pid_P_condicionado = true /\
  LimitarSalida0 pid_P_condicionado = false.
Proof.
  split; [apply alcanzable_seq; constructor|]. split; reflexivity.
Qed.

(** C5 (amended): [LimitarSalida(RESPUESTA)] leaves the limit off and returns
    [false] when both stored bounds equal [0]; with any other stored bounds,
    equal ones included, the effective state is [RESPUESTA]. *)
Theorem C5_limitar_salida_sin_limites (s : controlPID) (b : bool) :
  let r := LimitarSalida1 s b in
  LimitaSalida (fst r) = snd r /\
  snd r = b && negb ((SalidaMax s == cero)%f32 && (SalidaMin s == cero)%f32) /\
  SalidaMax (fst r) = SalidaMax s /\ SalidaMin (fst r) = SalidaMin s.
Proof. intros r. subst r. rewrite LimitarSalida1_eq. cbn. repeat split. Qed.

(** C5 as stated fails: with the bounds [5, 5] stored, [LimitarSalida(true)]
    returns [true] and enables the limit. *)
Lemma C5_counterexample :
  alcanzable pid_P_5_5 /\
  SalidaMin pid_P_5_5 = F32.of_Z 5 /\ SalidaMax pid_P_5_5 = F32.of_Z 5 /\
  (SalidaMin pid_P_5_5 == SalidaMax pid_P_5_5)%f32 = true /\
  snd (LimitarSalida1 pid_P_5_5 true) = true /\
  LimitaSalida (fst (LimitarSalida1 pid_P_5_5 true)) = true.
Proof. split; [apply (alc_paso pid_P); apply alc_new|]. repeat split; reflexivity. Qed.

(** C6 (amended): [LimitarIntegral(RESPUESTA)] returns [false] and leaves the
    integral limit off whenever [SalidaMax == SalidaMin]; otherwise the
    effective state is [RESPUESTA], so the flag can only become [true] when
    [SalidaMax != SalidaMin] (the order of the bounds is not looked at). *)
Theorem C6_limitar_integral_sin_limites (s : controlPID) (b : bool) :
  let r := LimitarIntegral s b in
  LimitaIntegral (fst r) = snd r /\
  snd r = b && (SalidaMax s != SalidaMin s)%f32.
Proof. intros r. subst r. rewrite LimitarIntegral_eq. cbn. repeat split. Qed.

(** C6 as stated fails: with the inverted bounds [SalidaMin = 3],
    [SalidaMax = 1] stored, [LimitarIntegral(true)] returns [true]. *)
Lemma C6_counterexample :
  alcanzable pid_P_3_1 /\
  (SalidaMin pid_P_3_1 > SalidaMax pid_P_3_1)%f32 = true /\
  snd (LimitarIntegral pid_P_3_1 true) = true /\
  LimitaIntegral (fst (LimitarIntegral pid_P_3_1 true)) = true.
Proof. split; [apply (alc_paso pid_P); apply alc_new|]. repeat split; reflexivity. Qed.

(** ** More on binary32 comparisons *)

Module F32More.

Import F32Facts.

(** For numbers, exactly one of [a < b], [a == b], [a > b] holds. *)
Lemma ltb_total (a b : float) :
  F32.is_nan a = false -> F32.is_nan b = false ->
  negb (F32.eqb b a) && negb (F32.gtb a b) = F32.ltb a b.
Proof. by_cases_on_floats. Qed.

Lemma nan_bound_rejects (a b : float) :
  F32.is_nan a || F32.is_nan b = true ->
  F32.eqb b a = false /\ F32.gtb a b = false.
Proof.
  destruct a as [[]|[]| |[] ? ?], b as [[]|[]| |[] ? ?];
    cbn; intros H; try discriminate H; split; reflexivity.
Qed.

Lemma clamp_nan_bound (lo hi x : float) :
  F32.is_nan lo || F32.is_nan hi = true -> max (min x hi) lo = lo.
Proof.
  unfold max, min. rewrite gtb_ltb.
  destruct lo as [[]|[]| |[] ? ?], hi as [[]|[]| |[] ? ?];
    cbn; intros H; try discriminate H;
    try (destruct (F32.ltb x _); reflexivity).
  all: destruct x as [[]|[]| |[] ? ?]; reflexivity.
Qed.

Lemma add_nan_r (x : float) : F32.add x S754_nan = S754_nan.
Proof. destruct x as [[]|[]| |[] ? ?]; reflexivity. Qed.

(** [k * (e - e) * MILLON / 0] is NaN: the difference is a zero or NaN, so
    is every product with it, and the quotient of such a value by zero is
    NaN. *)
Lemma sub_diag (e : float) : F32.zero_or_nan (F32.sub e e) = true.
Proof.
  destruct e as [[]|[]| |[] m x]; try reflexivity;
    unfold F32.sub, SFsub; rewrite Z.sub_diag; reflexivity.
Qed.

Lemma mul_zero_or_nan_r (k z : float) :
  F32.zero_or_nan z = true -> F32.zero_or_nan (F32.mul k z) = true.
Proof.
  destruct z as [[]|[]| |[] ? ?]; try discriminate; intros _;
    destruct k as [[]|[]| |[] ? ?]; reflexivity.
Qed.

Lemma mul_zero_or_nan_MILLON (z : float) :
  F32.zero_or_nan z = true -> F32.zero_or_nan (F32.mul z MILLON) = true.
Proof. destruct z as [[]|[]| |[] ? ?]; try discriminate; reflexivity. Qed.

Lemma div_cero (z : float) : F32.zero_or_nan z = true -> F32.div z cero = S754_nan.
Proof. destruct z as [[]|[]| |[] ? ?]; try discriminate; reflexivity. Qed.

Lemma min_nan (hi : float) : min S754_nan hi = hi.
Proof. reflexivity. Qed.

Lemma eqb_zeros (a b : float) :
  F32.eqb a cero = true -> F32.eqb b cero = true -> F32.eqb a b = true.
Proof. unfold cero. by_cases_on_floats. Qed.

End F32More.

(** ** The setters, beyond their guards *)

(** X1: for bounds that are numbers, [LimitarSalida(RESPUESTA, SMIN, SMAX)]
    stores both bounds and answers [RESPUESTA && SMIN < SMAX]; the answer is
    what [LimitarSalida()] reports afterwards. *)
Theorem X1_limitar_salida_ordenada
  (s : controlPID) (b : bool) (smin smax : float) :
  F32.is_nan smin = false -> F32.is_nan smax = false ->
  let r := LimitarSalida3 s b smin smax in
  snd r = b && (smin < smax)%f32 /\
  LimitarSalida0 (fst r) = snd r /\
  SalidaMin (fst r) = smin /\ SalidaMax (fst r) = smax.
Proof.
  intros Hmin Hmax r. subst r. rewrite LimitarSalida3_eq. cbn.
  rewrite <- andb_assoc, (F32More.ltb_total smin smax Hmin Hmax). repeat split.
Qed.

Lemma X1_limitar_salida_ordenada_witness :
  snd (LimitarSalida3 pid_P true (F32.of_Z (-1)) (F32.of_Z 1)) = true /\
  snd (LimitarSalida3 pid_P true (F32.of_Z 1) (F32.of_Z (-1))) = false.
Proof.
  split.
  - rewrite (proj1 (X1_limitar_salida_ordenada pid_P true (F32.of_Z (-1)) (F32.of_Z 1)
                      eq_refl eq_refl)). reflexivity.
  - rewrite (proj1 (X1_limitar_salida_ordenada pid_P true (F32.of_Z 1) (F32.of_Z (-1))
                      eq_refl eq_refl)). reflexivity.
Defined.

(** X2: once [LimitarSalida(true, SMIN, SMAX)] has answered [true] for bounds
    that are numbers, every value returned by the following [Controlar]
    calls lies in [[SMIN, SMAX]]. *)
Theorem X2_limite_aceptado_acota
  (s : controlPID) (smin smax : float) (cs : list ciclo) :
  F32.is_nan smin = false -> F32.is_nan smax = false ->
  snd (LimitarSalida3 s true smin smax) = true ->
  Forall (fun r => F32.within smin smax (snd r) = true)
         (Controlar_seq (fst (LimitarSalida3 s true smin smax)) cs).
Proof.
  intros Hmin Hmax. rewrite LimitarSalida3_eq. cbn.
  rewrite (F32More.ltb_total smin smax Hmin Hmax). intros Hlt.
  rewrite Hlt.
  eapply Forall_impl;
    [|apply (Controlar_seq_limitada smin smax cs (F32Facts.ltb_leb _ _ Hlt));
      reflexivity].
  intros r [H _]. exact H.
Qed.

Lemma X2_limite_aceptado_acota_witness :
  Forall (fun r => F32.within (F32.of_Z (-1)) (F32.of_Z 1) (snd r) = true)
         (Controlar_seq (fst (LimitarSalida3 pid_PI true (F32.of_Z (-1)) (F32.of_Z 1)))
                        [(1000, F32.of_Z 3); (2000, F32.of_Z (-8))]).
Proof.
  apply (X2_limite_aceptado_acota pid_PI (F32.of_Z (-1)) (F32.of_Z 1)); reflexivity.
Defined.

(** X3: a bound that is NaN passes both tests of
    [LimitarSalida(true, SMIN, SMAX)], which answers [true]; from then on
    every [Controlar] call returns [SMIN]. *)
Theorem X3_limite_nan
  (s : controlPID) (smin smax : float) (cs : list ciclo) :
  F32.is_nan smin || F32.is_nan smax = true ->
  snd (LimitarSalida3 s true smin smax) = true /\
  Forall (fun r => snd r = smin)
         (Controlar_seq (fst (LimitarSalida3 s true smin smax)) cs).
Proof.
  intros Hnan. rewrite LimitarSalida3_eq. cbn.
  destruct (F32More.nan_bound_rejects smin smax Hnan) as [He Hg].
  rewrite He, Hg. cbn. split; [reflexivity|].
  generalize (set_LimitaSalida (set_SalidaMin (set_SalidaMax s smax) smin) true)
             (eq_refl : LimitaSalida
                          (set_LimitaSalida (set_SalidaMin (set_SalidaMax s smax) smin) true)
                        = true)
             (eq_refl : SalidaMin
                          (set_LimitaSalida (set_SalidaMin (set_SalidaMax s smax) smin) true)
                        = smin)
             (eq_refl : SalidaMax
                          (set_LimitaSalida (set_SalidaMin (set_SalidaMax s smax) smin) true)
                        = smax).
  induction cs as [|[t e] cs IH]; intros s0 Hls Hlo Hhi; cbn [Controlar_seq].
  - constructor.
  - destruct (Controlar_frame s0 t e)
      as (_ & _ & _ & Hls' & _ & _ & Hmax' & Hmin' & _).
    constructor.
    + rewrite Controlar_salida, Hls, Hlo, Hhi. now apply F32More.clamp_nan_bound.
    + apply IH; congruence.
Qed.

Lemma X3_limite_nan_witness :
  Forall (fun r => snd r = F32.of_Z 2)
         (Controlar_seq (fst (LimitarSalida3 pid_P true (F32.of_Z 2) S754_nan))
                        [(1000, F32.of_Z 3); (2000, F32.of_Z (-8))]).
Proof.
  apply (X3_limite_nan pid_P (F32.of_Z 2) S754_nan). reflexivity.
Defined.

(** X4: each setter answers what its getter reports afterwards; the answer
    is never [true] for a request [false], so a limit or the conditioning
    can always be switched off; and a setter changes no member other than its
    flag (and the two bounds, for the three-argument one). *)
Theorem X4_respuesta_y_consulta (s : controlPID) (b : bool) (smin smax : float) :
  (LimitarSalida0 (fst (LimitarSalida1 s b)) = snd (LimitarSalida1 s b) /\
   LimitarSalida0 (fst (LimitarSalida3 s b smin smax)) = snd (LimitarSalida3 s b smin smax) /\
   LimitarIntegral0 (fst (LimitarIntegral s b)) = snd (LimitarIntegral s b) /\
   CondicionarIntegral0 (fst (CondicionarIntegral s b)) = snd (CondicionarIntegral s b)) /\
  (snd (LimitarSalida1 s false) = false /\
   snd (LimitarSalida3 s false smin smax) = false /\
   snd (LimitarIntegral s false) = false /\
   snd (CondicionarIntegral s false) = false) /\
  (fst (LimitarSalida1 s b) = set_LimitaSalida s (snd (LimitarSalida1 s b)) /\
   fst (LimitarSalida3 s b smin smax)
   = set_LimitaSalida (set_SalidaMin (set_SalidaMax s smax) smin)
                      (snd (LimitarSalida3 s b smin smax)) /\
   fst (LimitarIntegral s b) = set_LimitaIntegral s (snd (LimitarIntegral s b)) /\
   fst (CondicionarIntegral s b)
   = set_CondicionaIntegral s (snd (CondicionarIntegral s b))).
Proof.
  rewrite !LimitarSalida1_eq, !LimitarSalida3_eq, !LimitarIntegral_eq,
    !CondicionarIntegral_eq.
  cbn. repeat split.
Qed.

(** X5: after a [LimitarSalida] call of either overload,
    [CondicionarIntegral(true)] answers what that call answered; and after
    [LimitarSalida(RESPUESTA, SMIN, SMAX)], [LimitarIntegral(true)] answers
    [SMAX != SMIN], whatever [RESPUESTA] was. *)
Theorem X5_condicionar_tras_limitar (s : controlPID) (b : bool) (smin smax : float) :
  snd (CondicionarIntegral (fst (LimitarSalida1 s b)) true) = snd (LimitarSalida1 s b) /\
  snd (CondicionarIntegral (fst (LimitarSalida3 s b smin smax)) true)
  = snd (LimitarSalida3 s b smin smax) /\
  snd (LimitarIntegral (fst (LimitarSalida3 s b smin smax)) true) = (smax != smin)%f32.
Proof.
  rewrite LimitarSalida1_eq, LimitarSalida3_eq. cbv zeta. cbn [fst snd].
  rewrite !CondicionarIntegral_eq, LimitarIntegral_eq. cbn. repeat split.
Qed.

(** ** Invariants of the reachable states *)

(** X6: in every reachable state, an enabled output limit has bounds that
    are not both zero. *)
Theorem X6_limite_con_limites (s : controlPID) :
  alcanzable s ->
  LimitaSalida s = true ->
  (SalidaMax s == cero)%f32 && (SalidaMin s == cero)%f32 = false.
Proof.
  induction 1 as [mem KP TI TD|s o _ IH]; [discriminate|].
  destruct o; cbn [ejecutar].
  - exact IH.
  - rewrite LimitarSalida1_eq. cbn. intros H.
    apply andb_true_iff in H. destruct H as [_ H]. now apply negb_true_iff in H.
  - rewrite LimitarSalida3_eq. cbn. intros H.
    apply andb_true_iff in H. destruct H as [H _].
    apply andb_true_iff in H. destruct H as [_ H]. apply negb_true_iff in H.
    destruct (SMAX == cero)%f32 eqn:Ea; [|reflexivity].
    destruct (SMIN == cero)%f32 eqn:Eb; [|reflexivity].
    now rewrite (F32More.eqb_zeros _ _ Ea Eb) in H.
  - rewrite LimitarIntegral_eq. exact IH.
  - rewrite CondicionarIntegral_eq. exact IH.
  - rewrite Controlar_eq. exact IH.
  - exact IH.
Qed.

Lemma X6_limite_con_limites_witness :
  (SalidaMax pid_P_limitado == cero)%f32 && (SalidaMin pid_P_limitado == cero)%f32 = false.
Proof.
  apply (X6_limite_con_limites pid_P_limitado);
    [apply (alc_paso pid_P); apply alc_new|reflexivity].
Defined.

(** X7: in every reachable state whose [Ti] is zero, [Integral] is [0]: the
    accumulator of a controller without integral action never moves. *)
Theorem X7_sin_accion_integral (s : controlPID) :
  alcanzable s -> (Ti s == cero)%f32 = true -> ObtenerIntegral s = cero.
Proof. intros Hs Hti. now apply alcanzable_sin_integral. Qed.

Lemma X7_sin_accion_integral_witness :
  ObtenerIntegral (fst (Controlar pid_P_limitado 1000 (F32.of_Z 3))) = cero.
Proof.
  apply (X7_sin_accion_integral (ejecutar pid_P_limitado (OpControlar 1000 (F32.of_Z 3))));
    [apply alc_paso; apply (alc_paso pid_P); apply alc_new|reflexivity].
Defined.

Lemma sin_limites_paso (s : controlPID) (o : operacion) :
  es_limitar_salida3 o = false ->
  SalidaMax s = cero /\ SalidaMin s = cero /\
  LimitaSalida s = false /\ LimitaIntegral s = false /\ CondicionaIntegral s = false ->
  SalidaMax (ejecutar s o) = cero /\ SalidaMin (ejecutar s o) = cero /\
  LimitaSalida (ejecutar s o) = false /\ LimitaIntegral (ejecutar s o) = false /\
  CondicionaIntegral (ejecutar s o) = false.
Proof.
  intros Ho (Hmax & Hmin & Hls & Hli & Hci).
  destruct o; try discriminate Ho; cbn [ejecutar].
  - repeat split; assumption.
  - rewrite LimitarSalida1_eq. cbn. rewrite Hmax, Hmin.
    change ((cero == cero)%f32) with true. cbn. rewrite andb_false_r.
    repeat split; assumption.
  - rewrite LimitarIntegral_eq. cbn. rewrite Hmax, Hmin.
    change ((cero == cero)%f32) with true. cbn. rewrite andb_false_r.
    repeat split; assumption.
  - rewrite CondicionarIntegral_eq. cbn. rewrite Hls, andb_false_r.
    repeat split; assumption.
  - rewrite Controlar_eq. cbn. repeat split; assumption.
  - repeat split; assumption.
Qed.

(** X8: an object constructed in zeroed storage has no limit and no
    conditioning, and no sequence of calls without a
    [LimitarSalida(RESPUESTA, SMIN, SMAX)] can enable any of the three. *)
Theorem X8_sin_limites_establecidos (KP TI TD : float) (ops : list operacion) :
  existsb es_limitar_salida3 ops = false ->
  let s := ejecutar_seq (controlPID_new zero_storage KP TI TD) ops in
  LimitarSalida0 s = false /\ LimitarIntegral0 s = false /\ CondicionarIntegral0 s = false.
Proof.
  intros Hops s.
  assert (H : SalidaMax s = cero /\ SalidaMin s = cero /\
              LimitaSalida s = false /\ LimitaIntegral s = false /\
              CondicionaIntegral s = false).
  { subst s. unfold ejecutar_seq.
    generalize (controlPID_new zero_storage KP TI TD)
               (conj eq_refl (conj eq_refl (conj eq_refl (conj eq_refl eq_refl)))
                : SalidaMax (controlPID_new zero_storage KP TI TD) = cero /\
                  SalidaMin (controlPID_new zero_storage KP TI TD) = cero /\
                  LimitaSalida (controlPID_new zero_storage KP TI TD) = false /\
                  LimitaIntegral (controlPID_new zero_storage KP TI TD) = false /\
                  CondicionaIntegral (controlPID_new zero_storage KP TI TD) = false).
    induction ops as [|o ops IH]; intros s0 H0; [exact H0|].
    cbn [existsb] in Hops. apply orb_false_iff in Hops. destruct Hops as [Ho Hops].
    cbn [fold_left]. apply (IH Hops). now apply sin_limites_paso. }
  destruct H as (_ & _ & Hls & Hli & Hci). repeat split; assumption.
Qed.

Lemma X8_sin_limites_establecidos_witness :
  let s := ejecutar_seq (controlPID_new zero_storage (F32.of_Z 2) (F32.of_Z 1) cero)
             [OpLimitarSalida1 true; OpLimitarIntegral true; OpCondicionarIntegral true;
              OpControlar 1000 (F32.of_Z 3)] in
  LimitarSalida0 s = false /\ LimitarIntegral0 s = false /\ CondicionarIntegral0 s = false.
Proof.
  apply (X8_sin_limites_establecidos (F32.of_Z 2) (F32.of_Z 1) cero
           [OpLimitarSalida1 true; OpLimitarIntegral true; OpCondicionarIntegral true;
            OpControlar 1000 (F32.of_Z 3)]).
  reflexivity.
Defined.

(** ** Members the constructor leaves unassigned *)

Lemma Controlar_sin_limites (s s' : controlPID) (t : ulong) (e : float) :
  Integral s = Integral s' -> Kp s = Kp s' -> Ti s = Ti s' -> Td s = Td s' ->
  TiempoAnterior s = TiempoAnterior s' -> ErrorAnterior s = ErrorAnterior s' ->
  CondicionaIntegral s = CondicionaIntegral s' ->
  LimitaSalida s = false -> LimitaSalida s' = false ->
  LimitaIntegral s = false -> LimitaIntegral s' = false ->
  snd (Controlar s t e) = snd (Controlar s' t e) /\
  Integral (fst (Controlar s t e)) = Integral (fst (Controlar s' t e)).
Proof.
  rewrite !Controlar_eq.
  destruct s as [sa p i d kp ti td ta ea ls li ci smax smin],
    s' as [sa' p' i' d' kp' ti' td' ta' ea' ls' li' ci' smax' smin'].
  cbn [Salida Proporcional Integral Derivativo Kp Ti Td TiempoAnterior ErrorAnterior
       LimitaSalida LimitaIntegral CondicionaIntegral SalidaMax SalidaMin].
  intros; subst. cbn [andb negb orb]. rewrite !orb_true_r. split; reflexivity.
Qed.

(** X9: the constructor does not assign [Salida], [Proporcional],
    [Derivativo], [SalidaMax] and [SalidaMin], but the values returned by
    [Controlar] on a constructed object do not depend on what the storage
    held. *)
Theorem X9_almacenamiento_indiferente
  (mem mem' : controlPID) (KP TI TD : float) (cs : list ciclo) :
  map snd (Controlar_seq (controlPID_new mem KP TI TD) cs)
  = map snd (Controlar_seq (controlPID_new mem' KP TI TD) cs).
Proof.
  assert (H : forall s s',
             Integral s = Integral s' -> Kp s = Kp s' -> Ti s = Ti s' -> Td s = Td s' ->
             TiempoAnterior s = TiempoAnterior s' -> ErrorAnterior s = ErrorAnterior s' ->
             CondicionaIntegral s = CondicionaIntegral s' ->
             LimitaSalida s = false -> LimitaSalida s' = false ->
             LimitaIntegral s = false -> LimitaIntegral s' = false ->
             map snd (Controlar_seq s cs) = map snd (Controlar_seq s' cs)).
  { induction cs as [|[t e] cs IH]; intros s s' Hi Hkp Hti Htd Hta Hea Hci Hls Hls' Hli Hli';
      [reflexivity|].
    cbn [Controlar_seq map].
    destruct (Controlar_sin_limites s s' t e Hi Hkp Hti Htd Hta Hea Hci Hls Hls' Hli Hli')
      as [Hout Hst].
    f_equal; [exact Hout|].
    destruct (Controlar_frame s t e)
      as (Ekp & Eti & Etd & Els & Eli & Eci & _ & _ & Eta & Eea & _).
    destruct (Controlar_frame s' t e)
      as (Ekp' & Eti' & Etd' & Els' & Eli' & Eci' & _ & _ & Eta' & Eea' & _).
    apply IH; congruence. }
  apply H; reflexivity.
Qed.

(** ** Resets *)

(** X10: [Apagar()] followed by [Controlar] gives the same object and the
    same value as [ConfigurarPID] with the present gains followed by the same
    [Controlar]. *)
Theorem X10_apagar_como_configurar (s : controlPID) (t : ulong) (e : float) :
  Controlar (Apagar s) t e = Controlar (ConfigurarPID s (Kp s) (Ti s) (Td s)) t e.
Proof.
  rewrite !Controlar_eq.
  destruct s as [sa p i d kp ti td ta ea ls li ci smax smin]. reflexivity.
Qed.

(** X11: the first [Controlar] call after a reset returns the proportional
    term alone, limited if the output limit is on, for any [Ti] and [Td]. *)
Theorem X11_primera_salida (s : controlPID) (t : ulong) (e : float) :
  reiniciado s ->
  let p := F32.drop_zero_sign (Kp s * e)%f32 in
  snd (Controlar s t e)
  = if LimitarSalida0 s then max (min p (SalidaMax s)) (SalidaMin s) else p.
Proof.
  intros H p. destruct (reiniciado_estado s H) as [Hta Hi].
  rewrite Controlar_eq. cbn. rewrite Hta, Hi. cbn. rewrite add_cero_cero. reflexivity.
Qed.

Lemma X11_primera_salida_witness :
  snd (Controlar (Apagar pid_PI_en_marcha) 5000 (F32.of_Z 4)) = F32.of_Z 4.
Proof.
  rewrite (X11_primera_salida (Apagar pid_PI_en_marcha) 5000 (F32.of_Z 4)
             (rei_apagar pid_PI_en_marcha)).
  reflexivity.
Defined.

Lemma Controlar_seq_conserva (s0 : controlPID) (cs : list ciclo) :
  forall s,
    Kp s = Kp s0 -> Ti s = Ti s0 -> Td s = Td s0 ->
    LimitaSalida s = LimitaSalida s0 -> LimitaIntegral s = LimitaIntegral s0 ->
    CondicionaIntegral s = CondicionaIntegral s0 ->
    SalidaMax s = SalidaMax s0 -> SalidaMin s = SalidaMin s0 ->
    Forall2 (fun c r =>
               Kp (fst r) = Kp s0 /\ Ti (fst r) = Ti s0 /\ Td (fst r) = Td s0 /\
               LimitarSalida0 (fst r) = LimitarSalida0 s0 /\
               LimitarIntegral0 (fst r) = LimitarIntegral0 s0 /\
               CondicionarIntegral0 (fst r) = CondicionarIntegral0 s0 /\
               SalidaMax (fst r) = SalidaMax s0 /\ SalidaMin (fst r) = SalidaMin s0 /\
               TiempoAnterior (fst r) = fst c /\ ErrorAnterior (fst r) = snd c /\
               ObtenerProporcional (fst r) = (Kp s0 * snd c)%f32 /\
               ObtenerSalida (fst r) = snd r)
            cs (Controlar_seq s cs).
Proof.
  induction cs as [|[t e] cs IH]; intros s H1 H2 H3 H4 H5 H6 H7 H8;
    cbn [Controlar_seq]; constructor;
    destruct (Controlar_frame s t e)
      as (E1 & E2 & E3 & E4 & E5 & E6 & E7 & E8 & E9 & E10 & E11 & E12).
  - unfold LimitarSalida0, LimitarIntegral0, CondicionarIntegral0,
      ObtenerProporcional, ObtenerSalida. cbn [fst snd].
    rewrite E1, E2, E3, E4, E5, E6, E7, E8, E9, E10, E11, E12, H1.
    repeat split; assumption.
  - apply IH.
    + now rewrite E1.
    + now rewrite E2.
    + now rewrite E3.
    + now rewrite E4.
    + now rewrite E5.
    + now rewrite E6.
    + now rewrite E7.
    + now rewrite E8.
Qed.

(** X12: along any sequence of [Controlar] calls the gains, the three flags
    and the bounds stay as they were, and after each call [ObtenerSalida]
    gives the value the call returned and [ObtenerProporcional] the product
    of [Kp] and the error of that call. *)
Theorem X12_controlar_conserva (s : controlPID) (cs : list ciclo) :
  Forall2 (fun c r =>
             Kp (fst r) = Kp s /\ Ti (fst r) = Ti s /\ Td (fst r) = Td s /\
             LimitarSalida0 (fst r) = LimitarSalida0 s /\
             LimitarIntegral0 (fst r) = LimitarIntegral0 s /\
             CondicionarIntegral0 (fst r) = CondicionarIntegral0 s /\
             SalidaMax (fst r) = SalidaMax s /\ SalidaMin (fst r) = SalidaMin s /\
             TiempoAnterior (fst r) = fst c /\ ErrorAnterior (fst r) = snd c /\
             ObtenerProporcional (fst r) = (Kp s * snd c)%f32 /\
             ObtenerSalida (fst r) = snd r)
          cs (Controlar_seq s cs).
Proof. apply Controlar_seq_conserva; reflexivity. Qed.

(** X13: the value returned by [Controlar] is the sum of the three terms
    that [ObtenerProporcional], [ObtenerIntegral] and [ObtenerDerivativo]
    give after the call, limited if the output limit is on. *)
Theorem X13_salida_es_suma (s : controlPID) (t : ulong) (e : float) :
  let s' := fst (Controlar s t e) in
  let suma := (ObtenerProporcional s' + ObtenerIntegral s' + ObtenerDerivativo s')%f32 in
  snd (Controlar s t e)
  = if LimitarSalida0 s then max (min suma (SalidaMax s)) (SalidaMin s) else suma.
Proof.
  intros s' suma. subst suma s'.
  unfold ObtenerProporcional, ObtenerIntegral, ObtenerDerivativo, LimitarSalida0.
  apply Controlar_salida.
Qed.

(** ** The derivative term and the clock *)

(** X14: a zero [Td] (of either sign) gives [Derivativo = 0] in every call,
    and with a zero [Ti] a call leaves [Integral] as it is. *)
Theorem X14_constantes_en_cero (s : controlPID) (t : ulong) (e : float) :
  ((Td s == cero)%f32 = true -> ObtenerDerivativo (fst (Controlar s t e)) = cero) /\
  ((Ti s == cero)%f32 = true ->
   ObtenerIntegral (fst (Controlar s t e)) = ObtenerIntegral s).
Proof.
  rewrite Controlar_eq. unfold ObtenerDerivativo, ObtenerIntegral, F32.neqb.
  cbn [fst Derivativo Integral].
  fold (F32.eqb (Td s) cero) (F32.eqb (Ti s) cero).
  split; intros H; rewrite H, andb_false_r; reflexivity.
Qed.

Lemma X14_constantes_en_cero_witness :
  let s := set_Td (set_Ti pid_PI_en_marcha (S754_zero true)) (S754_zero true) in
  ObtenerDerivativo (fst (Controlar s 2000 (F32.of_Z 9))) = cero /\
  ObtenerIntegral (fst (Controlar s 2000 (F32.of_Z 9))) = ObtenerIntegral s.
Proof.
  intros s. split.
  - apply (proj1 (X14_constantes_en_cero s 2000 (F32.of_Z 9))). reflexivity.
  - apply (proj2 (X14_constantes_en_cero s 2000 (F32.of_Z 9))). reflexivity.
Defined.

(** X15: in a call that is not the first and has [Td != 0],
    [Derivativo = Kp * Td * (ERROR - ErrorAnterior) * MILLON / (TiempoActual - TiempoAnterior)],
    whatever the limits, the conditioning and the integral are. *)
Theorem X15_derivada (s : controlPID) (t : ulong) (e : float) :
  0 < TiempoAnterior s ->
  (Td s != cero)%f32 = true ->
  ObtenerDerivativo (fst (Controlar s t e))
  = (Kp s * Td s * (e - ErrorAnterior s) * MILLON
     / F32.of_Z (ulong_sub t (TiempoAnterior s)))%f32.
Proof.
  intros Hta Htd. rewrite Controlar_eq. unfold ObtenerDerivativo.
  cbn [fst Derivativo]. apply Z.ltb_lt in Hta. now rewrite Hta, Htd.
Qed.

Lemma X15_derivada_witness :
  let s := set_Td pid_PI_en_marcha (F32.of_Z 2) in
  ObtenerDerivativo (fst (Controlar s 1001000 (F32.of_Z 4))) = F32.of_Z 6.
Proof.
  intros s.
  rewrite (X15_derivada s 1001000 (F32.of_Z 4)); reflexivity.
Defined.



Lemma ulong_sub_desbordado (t ta : ulong) :
  0 <= t < ta -> ta < ULONG_MOD -> ulong_sub t ta = t + ULONG_MOD - ta.
Proof.
  intros Ht Hta. unfold ulong_sub.
  replace (t - ta) with (t + ULONG_MOD - ta + (-1) * ULONG_MOD) by ring.
  rewrite Z_mod_plus_full. apply Z.mod_small. lia.
Qed.

(** X17: when the 32-bit clock has wrapped since the previous call
    ([TiempoActual < TiempoAnterior]), the elapsed time that enters
    [Derivativo] and the increment of [Integral] is
    [TiempoActual + 2^32 - TiempoAnterior] microseconds. *)
Theorem X17_reloj_desbordado (s : controlPID) (t : ulong) (e : float) :
  0 <= t < TiempoAnterior s ->
  TiempoAnterior s < ULONG_MOD ->
  (Td s != cero)%f32 = true ->
  (Ti s != cero)%f32 = true ->
  CondicionaIntegral s = false ->
  LimitaIntegral s = false ->
  let dt := F32.of_Z (t + ULONG_MOD - TiempoAnterior s) in
  ObtenerDerivativo (fst (Controlar s t e))
  = (Kp s * Td s * (e - ErrorAnterior s) * MILLON / dt)%f32 /\
  ObtenerIntegral (fst (Controlar s t e))
  = (Integral s + Kp s * (e + ErrorAnterior s) * dt / (F32.of_Z 2 * Ti s * MILLON))%f32.
Proof.
  intros Ht Hta Htd Hti Hci Hli dt. subst dt.
  rewrite <- (ulong_sub_desbordado t (TiempoAnterior s) Ht Hta).
  assert (H0 : (0 <? TiempoAnterior s) = true) by (apply Z.ltb_lt; lia).
  rewrite Controlar_eq. unfold ObtenerDerivativo, ObtenerIntegral.
  cbn [fst Derivativo Integral]. rewrite H0, Htd, Hti, Hci, Hli. cbn [andb negb orb].
  split; reflexivity.
Qed.

Lemma X17_reloj_desbordado_witness :
  let s := set_Td (set_TiempoAnterior pid_PI_en_marcha 4294966296) (F32.of_Z 2) in
  ObtenerDerivativo (fst (Controlar s 999000 (F32.of_Z 4))) = F32.of_Z 6 /\
  ObtenerIntegral (fst (Controlar s 999000 (F32.of_Z 4)))
  = binary_normalize F32.prec F32.emax 5 (-1) false.
Proof.
  intros s.
  assert (Ht : 0 <= 999000 < TiempoAnterior s) by (cbv; split; congruence).
  assert (Hta : TiempoAnterior s < ULONG_MOD) by reflexivity.
  destruct (X17_reloj_desbordado s 999000 (F32.of_Z 4) Ht Hta
              eq_refl eq_refl eq_refl eq_refl) as [HD HI].
  split; [rewrite HD|rewrite HI]; reflexivity.
Defined.

(** X18: [Apagar()] after a [Controlar] call leaves the object reset for a
    first call, with the three terms at [0], while [ObtenerSalida] still
    gives the value that call returned; gains, flags and bounds are those
    from before the call. *)
Theorem X18_apagar_tras_controlar (s : controlPID) (t : ulong) (e : float) :
  let s' := Apagar (fst (Controlar s t e)) in
  reiniciado s' /\
  ObtenerSalida s' = snd (Controlar s t e) /\
  ObtenerProporcional s' = cero /\ ObtenerIntegral s' = cero /\
  ObtenerDerivativo s' = cero /\
  Kp s' = Kp s /\ Ti s' = Ti s /\ Td s' = Td s /\
  LimitarSalida0 s' = LimitarSalida0 s /\ LimitarIntegral0 s' = LimitarIntegral0 s /\
  CondicionarIntegral0 s' = CondicionarIntegral0 s /\
  SalidaMax s' = SalidaMax s /\ SalidaMin s' = SalidaMin s.
Proof.
  intros s'. split; [apply rei_apagar|]. subst s'.
  rewrite Controlar_eq. cbn. repeat split.
Qed.

(** ** The output limit across retuning and shutdown *)

Lemma ejecutar_conserva_limite (s : controlPID) (o : operacion) :
  es_limitar_salida o = false ->
  LimitaSalida (ejecutar s o) = LimitaSalida s /\
  SalidaMin (ejecutar s o) = SalidaMin s /\ SalidaMax (ejecutar s o) = SalidaMax s.
Proof.
  intros Ho. destruct o; try discriminate Ho; cbn [ejecutar].
  - repeat split.
  - rewrite LimitarIntegral_eq. repeat split.
  - rewrite CondicionarIntegral_eq. repeat split.
  - rewrite Controlar_eq. repeat split.
  - repeat split.
Qed.

(** X19: with the output limit on and [SalidaMin <= SalidaMax], every value
    returned by [Controlar] lies in [[SalidaMin, SalidaMax]] along any
    sequence of calls without a [LimitarSalida]: [ConfigurarPID], [Apagar],
    [LimitarIntegral] and [CondicionarIntegral] in between do not loosen the
    limit. *)
Theorem X19_limite_persistente (s : controlPID) (ops : list operacion) :
  LimitaSalida s = true ->
  F32.leb (SalidaMin s) (SalidaMax s) = true ->
  existsb es_limitar_salida ops = false ->
  Forall (fun v => F32.within (SalidaMin s) (SalidaMax s) v = true)
         (ejecutar_salidas s ops).
Proof.
  intros Hls Hle.
  remember (SalidaMin s) as lo eqn:Hlo. remember (SalidaMax s) as hi eqn:Hhi.
  symmetry in Hlo, Hhi. revert s Hls Hlo Hhi.
  induction ops as [|o ops IH]; intros s Hls Hlo Hhi Hops; [constructor|].
  cbn [existsb] in Hops. apply orb_false_iff in Hops. destruct Hops as [Ho Hops].
  destruct (ejecutar_conserva_limite s o Ho) as (E1 & E2 & E3).
  assert (Hrest : Forall (fun v => F32.within lo hi v = true)
                         (ejecutar_salidas (ejecutar s o) ops))
    by (apply IH; congruence).
  cbn [ejecutar_salidas].
  destruct o; try exact Hrest.
  constructor; [|exact Hrest].
  rewrite Controlar_salida, Hls, Hlo, Hhi. now apply F32Facts.clamp_within.
Qed.

Lemma X19_limite_persistente_witness :
  Forall (fun v => F32.within (F32.of_Z (-1)) (F32.of_Z 1) v = true)
         (ejecutar_salidas pid_P_limitado
            [OpControlar 1000 (F32.of_Z 3);
             OpConfigurarPID (F32.of_Z 5) (F32.of_Z 1) (F32.of_Z 1);
             OpControlar 2000 (F32.of_Z (-3));
             OpApagar;
             OpControlar 3000 S754_nan]).
Proof.
  apply (X19_limite_persistente pid_P_limitado); reflexivity.
Defined.
